(** * PRO API backend: key store, usage ledger, quota check, billing webhook

    A shallow embedding of [src/api.py].  The SQLite file is a pair of finite
    maps (one per table), every helper that opens a connection is a function
    from the database to the committed database and a result, and the three
    outside collaborators the code calls (wall clock, random token, Stripe's
    signature check) are explicit inputs. *)

From stdpp Require Import gmap strings pretty list.
From Stdlib Require Import ZArith Lia.

Local Open Scope Z_scope.

(** ** Environment ([os.getenv] read once at import time) *)

Record Env := {
  WEBHOOK_SECRET : string;
  FREE_LIMIT_PER_DAY : Z;
  PRO_LIMIT_PER_DAY : Z
}.

(** The defaults of lines 21, 27 and 28, with a secret supplied. *)
Definition default_env (secret : string) : Env :=
  {| WEBHOOK_SECRET := secret; FREE_LIMIT_PER_DAY := 25; PRO_LIMIT_PER_DAY := 10000 |}.

(** ** Tables *)

(** A row of [api_keys].  [plan] and [is_active] are nullable columns, so a
    stored NULL is [None]. *)
Record KeyRow := {
  plan : option string;
  is_active : option Z;
  created_at : string
}.

(** The database: [api_keys] by primary key, [usage_counters] by the
    composite primary key (api_key, day).  [count] is an INTEGER, read back
    through Python's unbounded [int]. *)
Record DB := {
  api_keys : gmap string KeyRow;
  usage_counters : gmap (string * string) Z
}.

(** What [init_db] leaves in a new database file: both tables, no rows. *)
Definition init_db : DB := {| api_keys := ∅; usage_counters := ∅ |}.

Definition set_api_keys (t : gmap string KeyRow) (d : DB) : DB :=
  {| api_keys := t; usage_counters := usage_counters d |}.

Definition set_usage_counters (t : gmap (string * string) Z) (d : DB) : DB :=
  {| api_keys := api_keys d; usage_counters := t |}.

(** ** SQL statements on one table *)

Module Sql.
Section Table.
Context {K : Type} `{Countable K} {V : Type}.

(** INSERT OR IGNORE: a row with the same primary key wins. *)
Definition insert_or_ignore (k : K) (v : V) (t : gmap K V) : gmap K V :=
  match t !! k with
  | Some _ => t
  | None => <[k := v]> t
  end.

(** INSERT: a row with the same primary key is a constraint violation. *)
Definition insert_new (k : K) (v : V) (t : gmap K V) : option (gmap K V) :=
  match t !! k with
  | Some _ => None
  | None => Some (<[k := v]> t)
  end.

(** UPDATE ... SET ... WHERE key = k: rewrites the row when there is one. *)
Definition update_where (f : V → V) (k : K) (t : gmap K V) : gmap K V :=
  alter f k t.

(** SELECT ... WHERE key = k, then [fetchone()]. *)
Definition select_one (k : K) (t : gmap K V) : option V := t !! k.
End Table.
End Sql.

(** ** Exceptions and the connection-per-call monad *)

Inductive exn :=
| HTTPException (status_code : Z) (detail : string)
| TypeError
| IntegrityError.

Inductive result (A : Type) :=
| Return (a : A)
| Raise (e : exn).
Arguments Return {A} a.
Arguments Raise {A} e.

(** A handler takes the committed database and gives back the committed
    database together with what it returned or raised. *)
Definition M (A : Type) : Type := DB → DB * result A.

Definition ret {A} (a : A) : M A := fun d => (d, Return a).
Definition raise {A} (e : exn) : M A := fun d => (d, Raise e).
Definition bind {A B} (m : M A) (k : A → M B) : M B :=
  fun d => match m d with
           | (d', Return a) => k a d'
           | (d', Raise e) => (d', Raise e)
           end.

#[global] Instance M_ret : MRet M := @ret.
#[global] Instance M_bind : MBind M := fun A B k m => bind m k.

(** ** The clock *)

(** One reading of [datetime.now(timezone.utc)], through the two renderings
    the code takes of it. *)
Record datetime := {
  strftime_Ymd : string;
  isoformat : string
}.

Definition utc_day_str (now : datetime) : string := strftime_Ymd now.

(** ** DB helpers *)

Definition free_row (now : datetime) : KeyRow :=
  {| plan := Some "free"; is_active := Some 1; created_at := isoformat now |}.

Definition ensure_key_exists (now : datetime) (api_key : string) : M unit :=
  fun d => (set_api_keys (Sql.insert_or_ignore api_key (free_row now) (api_keys d)) d,
            Return tt).

Definition get_key_row (api_key : string) : M (option KeyRow) :=
  fun d => (d, Return (Sql.select_one api_key (api_keys d))).

Definition to_pro (r : KeyRow) : KeyRow :=
  {| plan := Some "pro"; is_active := Some 1; created_at := created_at r |}.

Definition upgrade_api_key_to_pro (api_key : string) : M unit :=
  fun d => (set_api_keys (Sql.update_where to_pro api_key (api_keys d)) d, Return tt).

Definition increment_usage (now : datetime) (api_key : string) : M Z :=
  fun d =>
    let day := utc_day_str now in
    let t1 := Sql.insert_or_ignore (api_key, day) 0 (usage_counters d) in
    let t2 := Sql.update_where (fun count => count + 1) (api_key, day) t1 in
    match Sql.select_one (api_key, day) t2 with
    | Some count => (set_usage_counters t2 d, Return count)
    | None => (d, Raise TypeError)
    end.


(** Python's [int(x)] on a column value: NULL is a [TypeError]. *)
Definition int_of (x : option Z) : M Z :=
  match x with
  | Some z => ret z
  | None => raise TypeError
  end.

(** Python's [x or "free"] on a TEXT column: NULL and the empty string are
    falsy. *)
Definition or_free (x : option string) : string :=
  match x with
  | None => "free"
  | Some s => if String.eqb s "" then "free" else s
  end.

Record Meta := {
  meta_plan : string;
  used_today : Z;
  limit_today : Z
}.

Definition limit_message (used limit : Z) : string :=
  "Daily limit exceeded: " +:+ pretty (used - 1) +:+ "/" +:+ pretty limit
  +:+ " used. Upgrade to PRO.".

Record KeyStatus := {
  ks_api_key : string;
  ks_plan : option string;
  ks_is_active : bool
}.

(** The part of a Stripe event the webhook reads: [event["type"]] and the
    metadata of [event["data"]["object"]] (a string-to-string map, absent
    or null as [None]). *)
Record Session := {
  metadata : option (gmap string string)
}.

Record Event := {
  event_type : string;
  data_object : Session
}.

(** [(session.get("metadata") or {}).get("api_key")] *)
Definition metadata_api_key (s : Session) : option string :=
  default ∅ (metadata s) !! "api_key".

Record Ack := { ok : bool }.

(** The usage a (key, day) pair has accumulated; no row yet counts as 0. *)
Definition usage_count (d : DB) (api_key day : string) : Z :=
  default 0 (usage_counters d !! (api_key, day)).

Section Handlers.
Variable env : Env.

Definition get_limit_for_plan (p : string) : Z :=
  if String.eqb p "pro" then PRO_LIMIT_PER_DAY env else FREE_LIMIT_PER_DAY env.

Definition require_active_and_rate_limit (now : datetime) (api_key : string) : M Meta :=
  row ← get_key_row api_key;
  match row with
  | None => raise (HTTPException 404 "Unknown api_key. Create one first.")
  | Some row =>
    active ← int_of (is_active row);
    if negb (active =? 1) then raise (HTTPException 403 "API key is not active.")
    else
      let p := or_free (plan row) in
      let limit := get_limit_for_plan p in
      used ← increment_usage now api_key;
      if used >? limit then raise (HTTPException 429 (limit_message used limit))
      else ret {| meta_plan := p; used_today := used; limit_today := limit |}
  end.

(** What the check answers for an active key of resolved plan [p] whose
    count so far today is [c] (lines 123 to 128 with [used = c + 1]). *)
Definition answer (p : string) (c : Z) : result Meta :=
  let limit := get_limit_for_plan p in
  if c + 1 >? limit then Raise (HTTPException 429 (limit_message (c + 1) limit))
  else Return {| meta_plan := p; used_today := c + 1; limit_today := limit |}.

(** *** Routes *)

(** [secrets.token_urlsafe(24)] is the [token] input. *)
Definition create_api_key (now : datetime) (token : string) : M (string * string) :=
  fun d =>
    let api_key := "key_" +:+ token in
    match Sql.insert_new api_key (free_row now) (api_keys d) with
    | Some t => (set_api_keys t d, Return (api_key, "free"))
    | None => (d, Raise IntegrityError)
    end.

Definition key_status (api_key : string) : M KeyStatus :=
  row ← get_key_row api_key;
  match row with
  | None => raise (HTTPException 404 "Unknown api_key")
  | Some row =>
    active ← int_of (is_active row);
    ret {| ks_api_key := api_key; ks_plan := plan row; ks_is_active := negb (active =? 0) |}
  end.

(** [stripe.Webhook.construct_event(payload, sig_header, secret)]: the
    typed event, or [None] when it raises.  The library compares the
    timestamp inside the header with the clock, so the clock reading is one
    of its inputs. *)
Variable construct_event : datetime → string → option string → string → option Event.

Definition stripe_webhook (now : datetime) (payload : string)
    (sig_header : option string) : M Ack :=
  if String.eqb (WEBHOOK_SECRET env) "" then
    raise (HTTPException 500 "STRIPE_WEBHOOK_SECRET is missing")
  else
    match construct_event now payload sig_header (WEBHOOK_SECRET env) with
    | None => raise (HTTPException 400 "Invalid webhook signature")
    | Some event =>
      _ ← (if String.eqb (event_type event) "checkout.session.completed" then
             match metadata_api_key (data_object event) with
             | Some api_key =>
               if String.eqb api_key "" then ret tt
               else upgrade_api_key_to_pro api_key
             | None => ret tt
             end
           else ret tt);
      ret {| ok := true |}
    end.

Definition protected_ping (now : datetime) (api_key : string) : M Meta :=
  require_active_and_rate_limit now api_key.

(** *** Sequences of requests *)

Inductive Op :=
| CreateKey (now : datetime) (token : string)
| EnsureExists (now : datetime) (api_key : string)
| Get (api_key : string)
| CheckAndCount (now : datetime) (api_key : string)
| UpgradeToPro (api_key : string)
| HandlePaymentEvent (now : datetime) (payload : string) (sig_header : option string).

(** The database one request leaves behind. *)
Definition step (o : Op) (d : DB) : DB :=
  match o with
  | CreateKey now token => fst (create_api_key now token d)
  | EnsureExists now k => fst (ensure_key_exists now k d)
  | Get k => fst (key_status k d)
  | CheckAndCount now k => fst (protected_ping now k d)
  | UpgradeToPro k => fst (upgrade_api_key_to_pro k d)
  | HandlePaymentEvent now payload sig => fst (stripe_webhook now payload sig d)
  end.

Definition run (ops : list Op) (d : DB) : DB := foldl (fun d o => step o d) d ops.

(** The same key asked for once per clock reading, results in order. *)
Fixpoint calls (nows : list datetime) (api_key : string) (d : DB)
  : DB * list (result Meta) :=
  match nows with
  | [] => (d, [])
  | now :: rest =>
    let '(d1, r) := require_active_and_rate_limit now api_key d in
    let '(d2, rs) := calls rest api_key d1 in
    (d2, r :: rs)
  end.
End Handlers.

(** Every stored count is at least 1: a row is only ever created by
    [increment_usage], which adds 1 in the same transaction. *)
Definition ledger_wf (d : DB) : Prop :=
  map_Forall (fun _ count => 1 ≤ count) (usage_counters d).

#[global] Instance ledger_wf_dec (d : DB) : Decision (ledger_wf d).
Proof. unfold ledger_wf. apply _. Defined.

(** What the requests keep true of the key table: every row is active and
    its plan is "free" or "pro". *)
Definition keys_wf (d : DB) : Prop :=
  map_Forall (fun _ r => is_active r = Some 1
                         ∧ (plan r = Some "free" ∨ plan r = Some "pro"))
             (api_keys d).

(** Every usage row belongs to a key that has a row. *)
Definition ledger_owned (d : DB) : Prop :=
  map_Forall (fun kd _ => is_Some (api_keys d !! kd.1)) (usage_counters d).

(** ** Checkout *)

(** What [create_checkout] gives back: the session's url and id, an
    [HTTPException], or the exception [stripe.checkout.Session.create]
    raised. *)
Inductive checkout_outcome :=
| CheckoutSession (url session_id : string)
| CheckoutRefused (status_code : Z) (detail : string)
| CheckoutStripeError.

Section Checkout.
(** [stripe.api_key = os.getenv("STRIPE_SECRET_KEY")]: [None] when unset. *)
Variable stripe_api_key : option string.
(** Python's [str.strip()]. *)
Variable strip : string → string.
(** [stripe.checkout.Session.create(...)] for the key put in the metadata
    and the success url: the session's (url, id), or [None] when it raises. *)
Variable Session_create : string → option (string * string).

Definition create_checkout (now : datetime) (body_api_key : string)
  : DB → DB * checkout_outcome :=
  fun d =>
    if match stripe_api_key with
       | None => true
       | Some s => String.eqb s ""
       end
    then (d, CheckoutRefused 500 "STRIPE_SECRET_KEY is missing")
    else
      let api_key := strip body_api_key in
      if String.eqb api_key "" then (d, CheckoutRefused 400 "api_key is required")
      else
        let d1 := fst (ensure_key_exists now api_key d) in
        match Session_create api_key with
        | Some (url, session_id) => (d1, CheckoutSession url session_id)
        | None => (d1, CheckoutStripeError)
        end.
End Checkout.

(** [create_api_key] called once per (clock reading, token), results in
    order. *)
Fixpoint creates (reqs : list (datetime * string)) (d : DB)
  : DB * list (result (string * string)) :=
  match reqs with
  | [] => (d, [])
  | (now, token) :: rest =>
    let '(d1, r) := create_api_key now token d in
    let '(d2, rs) := creates rest d1 in
    (d2, r :: rs)
  end.

(** ** A small scenario, used to exercise the statements below *)

Module Scenario.
Definition noon : datetime :=
  {| strftime_Ymd := "2024-05-01"; isoformat := "2024-05-01T12:00:00+00:00" |}.
Definition next_day : datetime :=
  {| strftime_Ymd := "2024-05-02"; isoformat := "2024-05-02T00:00:01+00:00" |}.

Definition env : Env := default_env "whsec_test".

(** A verifier that accepts exactly the signature "good" and reads the
    payload as the api key named in the checkout session's metadata. *)
Definition construct_event (now : datetime) (payload : string)
    (sig_header : option string) (secret : string) : option Event :=
  match sig_header with
  | Some "good" =>
    Some {| event_type := "checkout.session.completed";
            data_object := {| metadata := Some {[ "api_key" := payload ]} |} |}
  | _ => None
  end.

Definition key : string := "key_abc".

(** One key created in a new database. *)
Definition created : DB := fst (create_api_key noon "abc" init_db).

(** The same key after 25 accepted calls at noon. *)
Definition exhausted : DB := fst (calls env (replicate 25 noon) key created).

(** The created key after its upgrade. *)
Definition upgraded : DB := fst (upgrade_api_key_to_pro key created).

(** A key switched off by hand in the table. *)
Definition disabled : DB :=
  set_api_keys
    (<[key := {| plan := Some "free"; is_active := Some 0;
                 created_at := isoformat noon |}]> ∅) init_db.

(** A key whose plan column holds NULL. *)
Definition null_plan : DB :=
  set_api_keys
    (<[key := {| plan := None; is_active := Some 1;
                 created_at := isoformat noon |}]> ∅) init_db.

(** A key whose flag was set to 2 by hand. *)
Definition flag_two : DB :=
  set_api_keys
    (<[key := {| plan := Some "free"; is_active := Some 2;
                 created_at := isoformat noon |}]> ∅) init_db.

(** A key whose flag column holds NULL. *)
Definition null_flag : DB :=
  set_api_keys
    (<[key := {| plan := Some "free"; is_active := None;
                 created_at := isoformat noon |}]> ∅) init_db.

(** A verifier that accepts every delivery as an invoice event. *)
Definition construct_invoice (now : datetime) (payload : string)
    (sig_header : option string) (secret : string) : option Event :=
  Some {| event_type := "invoice.paid";
          data_object := {| metadata := Some {[ "api_key" := payload ]} |} |}.

(** A strip that only knows the key written with one space on each side. *)
Definition strip (s : string) : string :=
  if String.eqb s " key_abc " then "key_abc"
  else if String.eqb s " " then "" else s.

(** Stripe answering, and Stripe raising. *)
Definition Session_create (api_key : string) : option (string * string) :=
  Some ("https://checkout.stripe.test/" +:+ api_key, "cs_test_1").
Definition Session_create_down (api_key : string) : option (string * string) := None.
End Scenario.

(** * Properties *)

(** ** The usage ledger *)

Lemma update_after_insert_or_ignore (k : string * string) (t : gmap (string * string) Z) :
  Sql.update_where (fun count => count + 1) k (Sql.insert_or_ignore k 0 t)
  = <[k := default 0 (t !! k) + 1]> t.
Proof.
  unfold Sql.update_where, Sql.insert_or_ignore.
  apply map_eq; intros j.
  destruct (t !! k) as [c|] eqn:E; simpl.
  - rewrite lookup_alter, lookup_insert.
    repeat case_decide; subst; try congruence. by rewrite E.
  - rewrite lookup_alter, !lookup_insert.
    repeat case_decide; subst; try congruence; done.
Qed.

(** One call of [increment_usage]: the row of (key, today) holds the old
    count plus one, and that is the value returned. *)
Lemma increment_usage_eq now k d :
  increment_usage now k d
  = (set_usage_counters
       (<[(k, utc_day_str now) := usage_count d k (utc_day_str now) + 1]> (usage_counters d)) d,
     Return (usage_count d k (utc_day_str now) + 1)).
Proof.
  unfold increment_usage, usage_count; cbv zeta.
  rewrite update_after_insert_or_ignore.
  unfold Sql.select_one. by rewrite lookup_insert_eq.
Qed.

Lemma usage_count_after_increment now k d :
  usage_count (fst (increment_usage now k d)) k (utc_day_str now)
  = usage_count d k (utc_day_str now) + 1.
Proof.
  rewrite increment_usage_eq; simpl.
  unfold usage_count at 1; simpl. by rewrite lookup_insert_eq.
Qed.


(** ** The quota check, case by case *)

Section QuotaCheck.
Variable env : Env.

Lemma require_unknown now k d :
  api_keys d !! k = None →
  require_active_and_rate_limit env now k d
  = (d, Raise (HTTPException 404 "Unknown api_key. Create one first.")).
Proof.
  intros E. unfold require_active_and_rate_limit, mbind, M_bind, bind, get_key_row,
    Sql.select_one. by rewrite E.
Qed.

Lemma require_null_flag now k d row :
  api_keys d !! k = Some row → is_active row = None →
  require_active_and_rate_limit env now k d = (d, Raise TypeError).
Proof.
  intros E F. unfold require_active_and_rate_limit, mbind, M_bind, bind, get_key_row,
    Sql.select_one. rewrite E; simpl. by rewrite F.
Qed.

Lemma require_inactive now k d row a :
  api_keys d !! k = Some row → is_active row = Some a → a ≠ 1 →
  require_active_and_rate_limit env now k d
  = (d, Raise (HTTPException 403 "API key is not active.")).
Proof.
  intros E F Ha. unfold require_active_and_rate_limit, mbind, M_bind, bind, get_key_row,
    Sql.select_one. rewrite E; simpl. rewrite F; simpl.
  destruct (Z.eqb_spec a 1); [done|]. reflexivity.
Qed.

Lemma require_active now k d row :
  api_keys d !! k = Some row → is_active row = Some 1 →
  require_active_and_rate_limit env now k d
  = (fst (increment_usage now k d),
     answer env (or_free (plan row)) (usage_count d k (utc_day_str now))).
Proof.
  intros E F. unfold require_active_and_rate_limit, mbind, M_bind, bind, get_key_row,
    Sql.select_one. rewrite E; simpl. rewrite F; simpl.
  rewrite increment_usage_eq; simpl. unfold answer; cbv zeta.
  by destruct (_ >? _).
Qed.

(** The key table is never written by the quota check. *)
Lemma require_keeps_keys now k d :
  api_keys (fst (require_active_and_rate_limit env now k d)) = api_keys d.
Proof.
  destruct (api_keys d !! k) as [row|] eqn:E.
  - destruct (is_active row) as [a|] eqn:F.
    + destruct (decide (a = 1)) as [->|Ha].
      * rewrite (require_active _ _ _ _ E F), increment_usage_eq. reflexivity.
      * by rewrite (require_inactive _ _ _ _ _ E F Ha).
    + by rewrite (require_null_flag _ _ _ _ E F).
  - by rewrite (require_unknown _ _ _ E).
Qed.

Lemma calls_answers nows k day : ∀ d row,
  api_keys d !! k = Some row → is_active row = Some 1 →
  Forall (fun now => utc_day_str now = day) nows →
  snd (calls env nows k d)
  = (fun i => answer env (or_free (plan row)) (usage_count d k day + Z.of_nat i))
    <$> seq 0 (length nows).
Proof.
  induction nows as [|now rest IH]; intros d row E F Hd; [done|].
  apply Forall_cons in Hd as [Hnow Hrest]. subst day. simpl.
  rewrite (require_active now k d row E F).
  destruct (calls env rest k (fst (increment_usage now k d))) as [d2 rs] eqn:C.
  simpl. f_equal.
  - by rewrite Z.add_0_r.
  - change rs with (snd (d2, rs)). rewrite <- C.
    rewrite (IH _ row); [| by rewrite increment_usage_eq | done | done].
    rewrite usage_count_after_increment.
    rewrite <- fmap_S_seq, <- list_fmap_compose.
    apply list_fmap_ext; intros _ i _; simpl. f_equal. lia.
Qed.
End QuotaCheck.

(** C1. With FREE_LIMIT_PER_DAY = 25, twenty-six calls on one UTC day for a
    free, active key that has no usage row yet answer, in order,
    used_today = 1, 2, ..., 25 (plan "free", limit 25) and then a 429 whose
    message reports 25/25. *)
Theorem fresh_free_key_25_then_denied env nows k day d row :
  FREE_LIMIT_PER_DAY env = 25 →
  api_keys d !! k = Some row → plan row = Some "free" → is_active row = Some 1 →
  usage_counters d !! (k, day) = None →
  length nows = 26%nat → Forall (fun now => utc_day_str now = day) nows →
  snd (calls env nows k d)
  = ((fun i => Return {| meta_plan := "free"; used_today := i; limit_today := 25 |})
       <$> seqZ 1 25)
    ++ [Raise (HTTPException 429 "Daily limit exceeded: 25/25 used. Upgrade to PRO.")].
Proof.
  intros HF E P A U L Hd.
  rewrite (calls_answers env nows k day d row E A Hd), L, P.
  unfold usage_count; rewrite U; simpl default.
  unfold answer, get_limit_for_plan; simpl or_free; simpl String.eqb.
  rewrite HF. vm_compute. reflexivity.
Qed.

(** C1 at the scenario: a key just created, 26 calls at noon. *)
Lemma fresh_free_key_25_then_denied_witness :
  snd (calls Scenario.env (replicate 26 Scenario.noon) Scenario.key Scenario.created)
  = ((fun i => Return {| meta_plan := "free"; used_today := i; limit_today := 25 |})
       <$> seqZ 1 25)
    ++ [Raise (HTTPException 429 "Daily limit exceeded: 25/25 used. Upgrade to PRO.")].
Proof.
  apply (fresh_free_key_25_then_denied Scenario.env (replicate 26 Scenario.noon)
           Scenario.key "2024-05-01" Scenario.created (free_row Scenario.noon)).
  - reflexivity.
  - vm_compute; reflexivity.
  - reflexivity.
  - reflexivity.
  - vm_compute; reflexivity.
  - reflexivity.
  - repeat constructor.
Defined.

(** C2. Whenever the quota check raises the 429, the count of (key, today)
    stored afterwards is the count before the call plus one: the increment
    committed before the comparison stays. *)
Theorem denied_call_is_counted env now k d d' msg :
  require_active_and_rate_limit env now k d = (d', Raise (HTTPException 429 msg)) →
  usage_counters d' !! (k, utc_day_str now) = Some (usage_count d k (utc_day_str now) + 1)
  ∧ usage_count d' k (utc_day_str now) = usage_count d k (utc_day_str now) + 1.
Proof.
  intros R.
  assert (d' = fst (increment_usage now k d)) as ->.
  { destruct (api_keys d !! k) as [row|] eqn:E.
    - destruct (is_active row) as [a|] eqn:F.
      + destruct (decide (a = 1)) as [->|Ha].
        * rewrite (require_active env now k d row E F) in R. congruence.
        * rewrite (require_inactive env now k d row a E F Ha) in R. congruence.
      + rewrite (require_null_flag env now k d row E F) in R. congruence.
    - rewrite (require_unknown env now k d E) in R. congruence. }
  split; [| apply usage_count_after_increment].
  rewrite increment_usage_eq; simpl. apply lookup_insert_eq.
Qed.

(** C2 at the scenario: the 26th call at noon is denied and moves the
    stored count from 25 to 26. *)
Lemma denied_call_is_counted_witness :
  usage_count Scenario.exhausted Scenario.key "2024-05-01" = 25
  ∧ usage_counters
      (fst (require_active_and_rate_limit Scenario.env Scenario.noon Scenario.key
              Scenario.exhausted)) !! (Scenario.key, "2024-05-01") = Some 26.
Proof.
  split; [vm_compute; reflexivity|].
  apply (denied_call_is_counted Scenario.env Scenario.noon Scenario.key Scenario.exhausted
           _ "Daily limit exceeded: 25/25 used. Upgrade to PRO.").
  vm_compute; reflexivity.
Defined.

(** C4. A key whose [is_active] column is not 1 (0 in particular) is refused
    with the 403 whatever its count and limit are, and the whole database,
    the row of (key, today) included, is what it was before the call. *)
Theorem inactive_key_forbidden_uncounted env now k d row a :
  api_keys d !! k = Some row → is_active row = Some a → a ≠ 1 →
  require_active_and_rate_limit env now k d
  = (d, Raise (HTTPException 403 "API key is not active."))
  ∧ usage_counters (fst (require_active_and_rate_limit env now k d)) !! (k, utc_day_str now)
    = usage_counters d !! (k, utc_day_str now).
Proof.
  intros E F Ha. rewrite (require_inactive env now k d row a E F Ha). done.
Qed.

(** C4 at the scenario: a disabled key with no usage at all. *)
Lemma inactive_key_forbidden_uncounted_witness :
  require_active_and_rate_limit Scenario.env Scenario.noon Scenario.key Scenario.disabled
  = (Scenario.disabled, Raise (HTTPException 403 "API key is not active."))
  ∧ usage_counters
      (fst (require_active_and_rate_limit Scenario.env Scenario.noon Scenario.key
              Scenario.disabled)) !! (Scenario.key, utc_day_str Scenario.noon)
    = usage_counters Scenario.disabled !! (Scenario.key, utc_day_str Scenario.noon).
Proof.
  apply (inactive_key_forbidden_uncounted Scenario.env Scenario.noon Scenario.key
           Scenario.disabled
           {| plan := Some "free"; is_active := Some 0;
              created_at := isoformat Scenario.noon |} 0).
  - vm_compute; reflexivity.
  - reflexivity.
  - lia.
Defined.

(** ** Plan resolution *)

Lemma or_free_not_pro (p : option string) : p ≠ Some "pro" → or_free p ≠ "pro".
Proof.
  destruct p as [s|]; simpl; [|done].
  intros Hs. destruct (String.eqb_spec s ""); [done|]. congruence.
Qed.

(** C10. For an active key whose stored plan is anything but the exact
    string "pro" (NULL and the empty string included) the check uses
    FREE_LIMIT_PER_DAY: it answers either the success record or the 429,
    both with that limit, and never another error; a NULL or empty plan is
    reported as "free". *)
Theorem unrecognized_plan_is_free_tier env now k d row :
  api_keys d !! k = Some row → is_active row = Some 1 → plan row ≠ Some "pro" →
  get_limit_for_plan env (or_free (plan row)) = FREE_LIMIT_PER_DAY env
  ∧ snd (require_active_and_rate_limit env now k d)
    = (let used := usage_count d k (utc_day_str now) + 1 in
       if used >? FREE_LIMIT_PER_DAY env
       then Raise (HTTPException 429 (limit_message used (FREE_LIMIT_PER_DAY env)))
       else Return {| meta_plan := or_free (plan row); used_today := used;
                      limit_today := FREE_LIMIT_PER_DAY env |})
  ∧ (plan row = None ∨ plan row = Some "" → or_free (plan row) = "free").
Proof.
  intros E F P.
  assert (get_limit_for_plan env (or_free (plan row)) = FREE_LIMIT_PER_DAY env) as L.
  { unfold get_limit_for_plan.
    destruct (String.eqb_spec (or_free (plan row)) "pro") as [Hp|]; [|done].
    by apply or_free_not_pro in P. }
  split; [done|]. split.
  - rewrite (require_active env now k d row E F); simpl.
    unfold answer; cbv zeta. by rewrite L.
  - intros [-> | ->]; reflexivity.
Qed.

(** C10 at the scenario: a NULL plan is served as "free" with limit 25. *)
Lemma unrecognized_plan_is_free_tier_witness :
  snd (require_active_and_rate_limit Scenario.env Scenario.noon Scenario.key
         Scenario.null_plan)
  = Return {| meta_plan := "free"; used_today := 1; limit_today := 25 |}.
Proof.
  pose proof (unrecognized_plan_is_free_tier Scenario.env Scenario.noon Scenario.key
                Scenario.null_plan
                {| plan := None; is_active := Some 1;
                   created_at := isoformat Scenario.noon |}) as W.
  destruct W as (_ & W & _).
  - vm_compute; reflexivity.
  - reflexivity.
  - simpl; congruence.
  - rewrite W. vm_compute; reflexivity.
Defined.

(** ** The key store under upgrades *)

Lemma upgrade_lookup k j d :
  api_keys (fst (upgrade_api_key_to_pro k d)) !! j
  = if decide (k = j) then to_pro <$> api_keys d !! j else api_keys d !! j.
Proof.
  simpl. unfold Sql.update_where. rewrite lookup_alter.
  case_decide; subst; reflexivity.
Qed.

Lemma upgrade_twice k d :
  fst (upgrade_api_key_to_pro k (fst (upgrade_api_key_to_pro k d)))
  = fst (upgrade_api_key_to_pro k d).
Proof.
  simpl. unfold set_api_keys; simpl. f_equal.
  unfold Sql.update_where. apply map_eq; intros j.
  destruct (decide (k = j)) as [->|Hj].
  - rewrite !lookup_alter_eq. by destruct (api_keys d !! j).
  - by rewrite !lookup_alter_ne.
Qed.

Lemma upgrade_absent k d :
  api_keys d !! k = None → upgrade_api_key_to_pro k d = (d, Return tt).
Proof.
  intros E. unfold upgrade_api_key_to_pro, Sql.update_where. f_equal.
  destruct d as [ks us]; unfold set_api_keys; simpl in *. f_equal.
  apply map_eq; intros j.
  destruct (decide (k = j)) as [->|Hj].
  - by rewrite lookup_alter_eq, E.
  - by rewrite lookup_alter_ne.
Qed.

(** ** The billing webhook *)

Section Webhook.
Variable env : Env.
Variable construct_event : datetime → string → option string → string → option Event.

(** An accepted event either leaves the database alone or is exactly one
    upgrade; it always answers ok. *)
Lemma webhook_accepted now payload sig ev d :
  WEBHOOK_SECRET env ≠ "" →
  construct_event now payload sig (WEBHOOK_SECRET env) = Some ev →
  stripe_webhook env construct_event now payload sig d
  = (if String.eqb (event_type ev) "checkout.session.completed" then
       match metadata_api_key (data_object ev) with
       | Some k => if String.eqb k "" then d else fst (upgrade_api_key_to_pro k d)
       | None => d
       end
     else d, Return {| ok := true |}).
Proof.
  intros S C. unfold stripe_webhook.
  destruct (String.eqb_spec (WEBHOOK_SECRET env) ""); [done|].
  rewrite C. unfold mbind, M_bind, bind.
  destruct (String.eqb _ "checkout.session.completed"); [|done].
  destruct (metadata_api_key _) as [k|]; [|done].
  by destruct (String.eqb k "").
Qed.

Lemma webhook_rejected now payload sig d :
  WEBHOOK_SECRET env = ""
  ∨ construct_event now payload sig (WEBHOOK_SECRET env) = None →
  stripe_webhook env construct_event now payload sig d
  = (d, Raise (if String.eqb (WEBHOOK_SECRET env) ""
               then HTTPException 500 "STRIPE_WEBHOOK_SECRET is missing"
               else HTTPException 400 "Invalid webhook signature")).
Proof.
  intros H. unfold stripe_webhook.
  destruct (String.eqb_spec (WEBHOOK_SECRET env) ""); [done|].
  destruct H as [H|H]; [done|]. by rewrite H.
Qed.

(** A verified checkout-completed event that names a key is one upgrade. *)
Lemma webhook_checkout now payload sig ev k d :
  WEBHOOK_SECRET env ≠ "" →
  construct_event now payload sig (WEBHOOK_SECRET env) = Some ev →
  event_type ev = "checkout.session.completed" →
  metadata_api_key (data_object ev) = Some k → k ≠ "" →
  stripe_webhook env construct_event now payload sig d
  = (fst (upgrade_api_key_to_pro k d), Return {| ok := true |}).
Proof.
  intros S C T K Hk. rewrite (webhook_accepted now payload sig ev d S C).
  rewrite T, K; simpl String.eqb.
  destruct (String.eqb_spec k ""); [done|]. reflexivity.
Qed.

(** Whatever a delivery does, doing it to its own result changes nothing. *)
Lemma webhook_twice now payload sig d :
  let once := stripe_webhook env construct_event now payload sig d in
  stripe_webhook env construct_event now payload sig (fst once) = once.
Proof.
  cbv zeta.
  destruct (decide (WEBHOOK_SECRET env = "")) as [S|S].
  { rewrite !webhook_rejected by auto. done. }
  destruct (construct_event now payload sig (WEBHOOK_SECRET env)) as [ev|] eqn:C.
  2:{ rewrite !webhook_rejected by auto. done. }
  rewrite !(webhook_accepted now payload sig ev) by done.
  destruct (String.eqb _ "checkout.session.completed"); [|done].
  destruct (metadata_api_key _) as [k|]; [|done].
  destruct (String.eqb k ""); [done|].
  cbn [fst]. by rewrite upgrade_twice.
Qed.
End Webhook.

(** C5. When the webhook secret is empty, or when signature verification
    raises, the webhook answers an error (500, respectively 400) and the
    database is returned as it was, whatever the payload. *)
Theorem bad_signature_changes_nothing env construct_event now payload sig d :
  WEBHOOK_SECRET env = ""
  ∨ construct_event now payload sig (WEBHOOK_SECRET env) = None →
  stripe_webhook env construct_event now payload sig d
  = (d, Raise (if String.eqb (WEBHOOK_SECRET env) ""
               then HTTPException 500 "STRIPE_WEBHOOK_SECRET is missing"
               else HTTPException 400 "Invalid webhook signature")).
Proof. apply webhook_rejected. Qed.

(** C5 at the scenario: a forged signature on a payload naming a real key. *)
Lemma bad_signature_changes_nothing_witness :
  stripe_webhook Scenario.env Scenario.construct_event Scenario.noon Scenario.key
    (Some "forged") Scenario.created
  = (Scenario.created, Raise (HTTPException 400 "Invalid webhook signature")).
Proof.
  apply (bad_signature_changes_nothing Scenario.env Scenario.construct_event
           Scenario.noon Scenario.key (Some "forged") Scenario.created).
  right. reflexivity.
Defined.

(** C3. Upgrading any key twice leaves the database of upgrading it once,
    and a row that exists for the key then has plan "pro" and is_active 1.
    For a payload that verifies, at both deliveries, to the same
    checkout-completed event naming key [k] (the clock reading and the
    signature header may differ between the two), the first delivery is
    accepted and leaves exactly the database of one
    [upgrade_api_key_to_pro k]; the second delivery is accepted too and
    leaves that same database. *)
Theorem redelivered_payment_event_idempotent env construct_event :
  (∀ k d,
     fst (upgrade_api_key_to_pro k (fst (upgrade_api_key_to_pro k d)))
     = fst (upgrade_api_key_to_pro k d)
     ∧ ∀ row, api_keys d !! k = Some row →
         ∃ row', api_keys (fst (upgrade_api_key_to_pro k d)) !! k = Some row'
                 ∧ plan row' = Some "pro" ∧ is_active row' = Some 1)
  ∧ (∀ now1 now2 payload sig1 sig2 ev k d,
       WEBHOOK_SECRET env ≠ "" →
       construct_event now1 payload sig1 (WEBHOOK_SECRET env) = Some ev →
       construct_event now2 payload sig2 (WEBHOOK_SECRET env) = Some ev →
       event_type ev = "checkout.session.completed" →
       metadata_api_key (data_object ev) = Some k → k ≠ "" →
       let once := stripe_webhook env construct_event now1 payload sig1 d in
       let twice := stripe_webhook env construct_event now2 payload sig2 (fst once) in
       once = (fst (upgrade_api_key_to_pro k d), Return {| ok := true |})
       ∧ twice = once).
Proof.
  split.
  - intros k d. split; [apply upgrade_twice|].
    intros row E. rewrite upgrade_lookup, decide_True by done. rewrite E.
    by exists (to_pro row).
  - intros now1 now2 payload sig1 sig2 ev k d S C1 C2 T K Hk once twice.
    assert (once = (fst (upgrade_api_key_to_pro k d), Return {| ok := true |})) as H1.
    { apply (webhook_checkout env construct_event now1 payload sig1 ev k d); done. }
    split; [done|]. subst twice. rewrite H1. cbn [fst].
    rewrite (webhook_checkout env construct_event now2 payload sig2 ev k _ S C2 T K Hk).
    by rewrite upgrade_twice.
Qed.

(** C3 at the scenario: the same signed payload delivered at noon and again
    the next day, for a key that was created free. *)
Lemma redelivered_payment_event_idempotent_witness :
  let once := stripe_webhook Scenario.env Scenario.construct_event Scenario.noon
                Scenario.key (Some "good") Scenario.created in
  once = (Scenario.upgraded, Return {| ok := true |})
  ∧ stripe_webhook Scenario.env Scenario.construct_event Scenario.next_day
      Scenario.key (Some "good") (fst once) = once.
Proof.
  destruct (redelivered_payment_event_idempotent Scenario.env Scenario.construct_event)
    as (_ & W).
  apply (W Scenario.noon Scenario.next_day Scenario.key (Some "good") (Some "good")
           {| event_type := "checkout.session.completed";
              data_object := {| metadata := Some {[ "api_key" := Scenario.key ]} |} |}
           Scenario.key Scenario.created).
  - vm_compute; congruence.
  - reflexivity.
  - reflexivity.
  - reflexivity.
  - vm_compute; reflexivity.
  - vm_compute; congruence.
Defined.

(** C8, as the spec has it, fails: upgrading a key that has no row leaves it
    without a row. *)
Lemma upgrade_of_missing_key_creates_nothing :
  api_keys init_db !! "key_never_created" = None
  ∧ ¬ (∃ row, api_keys (fst (upgrade_api_key_to_pro "key_never_created" init_db))
                !! "key_never_created" = Some row
              ∧ plan row = Some "pro" ∧ is_active row = Some 1).
Proof.
  split; [reflexivity|].
  intros (row & E & _). vm_compute in E. discriminate.
Qed.

(** C8, amended. Upgrading a key that has no row returns normally and leaves
    the database as it was (the key still has no row); after
    [ensure_key_exists] the same upgrade leaves the key with plan "pro" and
    is_active 1. *)
Theorem upgrade_needs_existing_row now k d :
  api_keys d !! k = None →
  upgrade_api_key_to_pro k d = (d, Return tt)
  ∧ api_keys (fst (upgrade_api_key_to_pro k d)) !! k = None
  ∧ api_keys (fst (upgrade_api_key_to_pro k (fst (ensure_key_exists now k d)))) !! k
    = Some {| plan := Some "pro"; is_active := Some 1; created_at := isoformat now |}.
Proof.
  intros E. rewrite (upgrade_absent k d E). repeat split; [done|].
  rewrite upgrade_lookup, decide_True by done.
  simpl. unfold Sql.insert_or_ignore. rewrite E. by rewrite lookup_insert_eq.
Qed.

Lemma upgrade_needs_existing_row_witness :
  upgrade_api_key_to_pro "key_never_created" Scenario.created
  = (Scenario.created, Return tt).
Proof.
  apply (upgrade_needs_existing_row Scenario.noon "key_never_created" Scenario.created).
  vm_compute; reflexivity.
Defined.

(** ** Invariants over sequences of requests *)

Section Sequences.
Variable env : Env.
Variable construct_event : datetime → string → option string → string → option Event.

Lemma ensure_keeps_row now k' d k r :
  api_keys d !! k = Some r →
  api_keys (fst (ensure_key_exists now k' d)) !! k = Some r.
Proof.
  intros E. simpl. unfold Sql.insert_or_ignore.
  destruct (api_keys d !! k') eqn:E'; [done|].
  rewrite lookup_insert_ne; [done | congruence].
Qed.

Lemma create_keeps_row now token d k r :
  api_keys d !! k = Some r →
  api_keys (fst (create_api_key now token d)) !! k = Some r.
Proof.
  intros E. unfold create_api_key, Sql.insert_new.
  destruct (api_keys d !! ("key_" +:+ token)) eqn:E'; simpl; [done|].
  rewrite lookup_insert_ne; [done | congruence].
Qed.

Lemma key_status_reads_only k d : fst (key_status k d) = d.
Proof.
  unfold key_status, mbind, M_bind, bind, get_key_row; simpl.
  destruct (Sql.select_one k (api_keys d)) as [row|]; [|done].
  by destruct (is_active row).
Qed.

Lemma webhook_keys now payload sig d :
  fst (stripe_webhook env construct_event now payload sig d) = d
  ∨ ∃ k, fst (stripe_webhook env construct_event now payload sig d)
         = fst (upgrade_api_key_to_pro k d).
Proof.
  destruct (decide (WEBHOOK_SECRET env = "")) as [S|S].
  { left. by rewrite webhook_rejected by auto. }
  destruct (construct_event now payload sig (WEBHOOK_SECRET env)) as [ev|] eqn:C.
  2:{ left. by rewrite webhook_rejected by auto. }
  rewrite (webhook_accepted env construct_event now payload sig ev d S C). cbn [fst].
  destruct (String.eqb _ "checkout.session.completed"); [|by left].
  destruct (metadata_api_key _) as [k|]; [|by left].
  destruct (String.eqb k ""); [by left|]. right. by exists k.
Qed.

(** One request leaves an existing row as it was, or upgraded. *)
Lemma step_row o d k r :
  api_keys d !! k = Some r →
  api_keys (step env construct_event o d) !! k = Some r
  ∨ api_keys (step env construct_event o d) !! k = Some (to_pro r).
Proof.
  intros E. destruct o as [now token|now k'|k'|now k'|k'|now payload sig]; cbn [step].
  - left. by apply create_keeps_row.
  - left. by apply ensure_keeps_row.
  - left. by rewrite key_status_reads_only.
  - left. unfold protected_ping. by rewrite require_keeps_keys.
  - rewrite upgrade_lookup. case_decide; subst; rewrite ?E; auto.
  - destruct (webhook_keys now payload sig d) as [-> | [k' ->]]; [by left|].
    rewrite upgrade_lookup. case_decide; subst; rewrite ?E; auto.
Qed.

Lemma run_keeps_pro ops : ∀ d k r,
  api_keys d !! k = Some r → plan r = Some "pro" →
  ∃ r', api_keys (run env construct_event ops d) !! k = Some r' ∧ plan r' = Some "pro".
Proof.
  induction ops as [|o ops IH]; intros d k r E P; [by exists r|].
  simpl. destruct (step_row o d k r E) as [E' | E']; eapply IH; eauto.
Qed.

(** *** The ledger *)

Lemma require_ledger now k d :
  usage_counters (fst (require_active_and_rate_limit env now k d)) = usage_counters d
  ∨ usage_counters (fst (require_active_and_rate_limit env now k d))
    = <[(k, utc_day_str now) := usage_count d k (utc_day_str now) + 1]> (usage_counters d).
Proof.
  destruct (api_keys d !! k) as [row|] eqn:E.
  - destruct (is_active row) as [a|] eqn:F.
    + destruct (decide (a = 1)) as [->|Ha].
      * right. by rewrite (require_active _ _ _ _ _ E F), increment_usage_eq.
      * left. by rewrite (require_inactive _ _ _ _ _ _ E F Ha).
    + left. by rewrite (require_null_flag _ _ _ _ _ E F).
  - left. by rewrite (require_unknown _ _ _ _ E).
Qed.

(** A call only ever touches the row of its own (key, today). *)
Lemma require_other_rows now k d k2 day2 :
  (k2, day2) ≠ (k, utc_day_str now) →
  usage_counters (fst (require_active_and_rate_limit env now k d)) !! (k2, day2)
  = usage_counters d !! (k2, day2).
Proof.
  intros Hne. destruct (require_ledger now k d) as [-> | ->]; [done|].
  by rewrite lookup_insert_ne.
Qed.

Lemma usage_count_nonneg d k day : ledger_wf d → 0 ≤ usage_count d k day.
Proof.
  intros W. unfold usage_count.
  destruct (usage_counters d !! (k, day)) as [c|] eqn:E; simpl; [|lia].
  apply W in E. simpl in E. lia.
Qed.

Lemma step_ledger_wf o d : ledger_wf d → ledger_wf (step env construct_event o d).
Proof.
  intros W. destruct o as [now token|now k'|k'|now k'|k'|now payload sig]; cbn [step].
  - unfold create_api_key. by destruct (Sql.insert_new _ _ _).
  - done.
  - by rewrite key_status_reads_only.
  - unfold protected_ping, ledger_wf.
    destruct (require_ledger now k' d) as [-> | ->]; [done|].
    apply map_Forall_insert_2; [|done].
    pose proof (usage_count_nonneg d k' (utc_day_str now) W). lia.
  - done.
  - by destruct (webhook_keys now payload sig d) as [-> | [k' ->]].
Qed.

Lemma run_ledger_wf ops : ∀ d, ledger_wf d → ledger_wf (run env construct_event ops d).
Proof.
  induction ops as [|o ops IH]; intros d W; [done|].
  simpl. by apply IH, step_ledger_wf.
Qed.

Lemma reachable_ledger_wf ops : ledger_wf (run env construct_event ops init_db).
Proof. apply run_ledger_wf. unfold ledger_wf. simpl. apply map_Forall_empty. Qed.
End Sequences.

(** C6. A key whose plan is "pro" still has plan "pro" after any sequence of
    key creations, ensure-exists calls, status reads, quota checks, upgrades
    and webhook deliveries; and neither [ensure_key_exists] nor
    [create_api_key] changes a row that is already there. *)
Theorem plan_never_downgraded env construct_event d k r :
  api_keys d !! k = Some r →
  (plan r = Some "pro" →
   ∀ ops, ∃ r', api_keys (run env construct_event ops d) !! k = Some r'
                ∧ plan r' = Some "pro")
  ∧ (∀ now k', api_keys (fst (ensure_key_exists now k' d)) !! k = Some r)
  ∧ (∀ now token, api_keys (fst (create_api_key now token d)) !! k = Some r).
Proof.
  intros E. split; [|split].
  - intros P ops. by apply (run_keeps_pro env construct_event ops d k r).
  - intros now k'. by apply ensure_keeps_row.
  - intros now token. by apply create_keeps_row.
Qed.

(** C6 at the scenario: an upgraded key stays "pro" through an ensure-exists,
    a quota check, a webhook delivery and a colliding key creation. *)
Lemma plan_never_downgraded_witness :
  ∃ r', api_keys
          (run Scenario.env Scenario.construct_event
             [EnsureExists Scenario.next_day Scenario.key;
              CheckAndCount Scenario.next_day Scenario.key;
              HandlePaymentEvent Scenario.next_day Scenario.key (Some "good");
              CreateKey Scenario.next_day "abc"]
             Scenario.upgraded) !! Scenario.key = Some r'
        ∧ plan r' = Some "pro".
Proof.
  destruct (plan_never_downgraded Scenario.env Scenario.construct_event
              Scenario.upgraded Scenario.key (to_pro (free_row Scenario.noon)))
    as (W & _).
  - vm_compute; reflexivity.
  - apply W. reflexivity.
Defined.

(** C9. In a ledger whose stored counts are all at least 1 (every ledger the
    requests can build), take an active key whose count on some day equals
    its limit and a later clock reading for whose day the key has no row
    yet: the check succeeds with used_today = 1, the row of the earlier day
    keeps its count, and a call never changes the row of any other
    (key, day) pair. *)
Theorem new_day_starts_at_one env now' k day d row :
  ledger_wf d →
  api_keys d !! k = Some row → is_active row = Some 1 →
  usage_counters d !! (k, day) = Some (get_limit_for_plan env (or_free (plan row))) →
  usage_counters d !! (k, utc_day_str now') = None →
  let after := require_active_and_rate_limit env now' k d in
  snd after = Return {| meta_plan := or_free (plan row); used_today := 1;
                        limit_today := get_limit_for_plan env (or_free (plan row)) |}
  ∧ usage_counters (fst after) !! (k, utc_day_str now') = Some 1
  ∧ usage_counters (fst after) !! (k, day)
    = Some (get_limit_for_plan env (or_free (plan row)))
  ∧ (∀ k2 day2, (k2, day2) ≠ (k, utc_day_str now') →
       usage_counters (fst after) !! (k2, day2) = usage_counters d !! (k2, day2)).
Proof.
  intros W E F C N after. subst after.
  assert (1 ≤ get_limit_for_plan env (or_free (plan row))) as HL.
  { apply W in C. exact C. }
  assert (usage_count d k (utc_day_str now') = 0) as U0.
  { unfold usage_count. by rewrite N. }
  repeat split.
  - rewrite (require_active env now' k d row E F); cbn [snd].
    unfold answer; cbv zeta. rewrite U0.
    destruct (Z.gtb_spec (0 + 1) (get_limit_for_plan env (or_free (plan row)))); [lia|].
    reflexivity.
  - rewrite (require_active env now' k d row E F), increment_usage_eq; cbn [fst].
    simpl. rewrite lookup_insert_eq. by rewrite U0.
  - rewrite require_other_rows; [done|]. intros [= Hd]. congruence.
  - intros k2 day2 Hne. by apply require_other_rows.
Qed.

(** C9 at the scenario: 25 calls on 1 May reach the free limit; the first
    call on 2 May is answered with used_today = 1. *)
Lemma new_day_starts_at_one_witness :
  usage_counters Scenario.exhausted !! (Scenario.key, "2024-05-01") = Some 25
  ∧ snd (require_active_and_rate_limit Scenario.env Scenario.next_day Scenario.key
           Scenario.exhausted)
    = Return {| meta_plan := "free"; used_today := 1; limit_today := 25 |}.
Proof.
  split; [vm_compute; reflexivity|].
  pose proof (new_day_starts_at_one Scenario.env Scenario.next_day Scenario.key
                "2024-05-01" Scenario.exhausted (free_row Scenario.noon)) as W.
  cbv zeta in W. destruct W as (W & _).
  - apply (bool_decide_unpack (ledger_wf Scenario.exhausted)). vm_compute. exact I.
  - vm_compute; reflexivity.
  - reflexivity.
  - vm_compute; reflexivity.
  - vm_compute; reflexivity.
  - exact W.
Defined.

(** * Further properties of the routes *)

(** ** Keys that are missing or malformed *)

Lemma key_status_eq k d :
  key_status k d
  = (d, match api_keys d !! k with
        | None => Raise (HTTPException 404 "Unknown api_key")
        | Some row =>
          match is_active row with
          | None => Raise TypeError
          | Some a => Return {| ks_api_key := k; ks_plan := plan row;
                                ks_is_active := negb (a =? 0) |}
          end
        end).
Proof.
  unfold key_status, mbind, M_bind, bind, get_key_row, Sql.select_one.
  destruct (api_keys d !! k) as [row|]; [|done].
  by destruct (is_active row).
Qed.

(** X1. A key without a row is answered 404 by the status route and by the
    quota check, each with its own message, and neither writes anything: in
    particular no usage row appears for an unknown key. *)
Theorem unknown_key_is_404_everywhere env now k d :
  api_keys d !! k = None →
  key_status k d = (d, Raise (HTTPException 404 "Unknown api_key"))
  ∧ protected_ping env now k d
    = (d, Raise (HTTPException 404 "Unknown api_key. Create one first."))
  ∧ usage_counters (fst (protected_ping env now k d)) !! (k, utc_day_str now)
    = usage_counters d !! (k, utc_day_str now).
Proof.
  intros E. unfold protected_ping. rewrite (require_unknown env now k d E).
  rewrite key_status_eq, E. done.
Qed.

Lemma unknown_key_is_404_everywhere_witness :
  protected_ping Scenario.env Scenario.noon "key_other" Scenario.created
  = (Scenario.created, Raise (HTTPException 404 "Unknown api_key. Create one first.")).
Proof.
  apply (unknown_key_is_404_everywhere Scenario.env Scenario.noon "key_other"
           Scenario.created).
  vm_compute; reflexivity.
Defined.

(** X2. The two routes read the is_active column differently: for a stored
    flag other than 0 and 1 the status route reports the key as active,
    while the quota check refuses it with the 403 and counts nothing. *)
Theorem status_and_check_disagree_on_flag env now k d row a :
  api_keys d !! k = Some row → is_active row = Some a → a ≠ 0 → a ≠ 1 →
  key_status k d
  = (d, Return {| ks_api_key := k; ks_plan := plan row; ks_is_active := true |})
  ∧ protected_ping env now k d
    = (d, Raise (HTTPException 403 "API key is not active.")).
Proof.
  intros E F H0 H1. unfold protected_ping.
  rewrite (require_inactive env now k d row a E F H1).
  rewrite key_status_eq, E, F.
  destruct (Z.eqb_spec a 0); [done|]. done.
Qed.

Lemma status_and_check_disagree_on_flag_witness :
  key_status Scenario.key Scenario.flag_two
  = (Scenario.flag_two,
     Return {| ks_api_key := Scenario.key; ks_plan := Some "free"; ks_is_active := true |})
  ∧ protected_ping Scenario.env Scenario.noon Scenario.key Scenario.flag_two
    = (Scenario.flag_two, Raise (HTTPException 403 "API key is not active.")).
Proof.
  apply (status_and_check_disagree_on_flag Scenario.env Scenario.noon Scenario.key
           Scenario.flag_two
           {| plan := Some "free"; is_active := Some 2;
              created_at := isoformat Scenario.noon |} 2).
  - vm_compute; reflexivity.
  - reflexivity.
  - lia.
  - lia.
Defined.

(** X3. A row whose is_active column is NULL makes both routes fail with a
    [TypeError] (from [int(None)]) instead of a 403, and nothing is
    written. *)
Theorem null_flag_is_type_error env now k d row :
  api_keys d !! k = Some row → is_active row = None →
  key_status k d = (d, Raise TypeError)
  ∧ protected_ping env now k d = (d, Raise TypeError).
Proof.
  intros E F. unfold protected_ping.
  rewrite (require_null_flag env now k d row E F).
  by rewrite key_status_eq, E, F.
Qed.

Lemma null_flag_is_type_error_witness :
  key_status Scenario.key Scenario.null_flag = (Scenario.null_flag, Raise TypeError)
  ∧ protected_ping Scenario.env Scenario.noon Scenario.key Scenario.null_flag
    = (Scenario.null_flag, Raise TypeError).
Proof.
  apply (null_flag_is_type_error Scenario.env Scenario.noon Scenario.key
           Scenario.null_flag
           {| plan := Some "free"; is_active := None;
              created_at := isoformat Scenario.noon |}).
  - vm_compute; reflexivity.
  - reflexivity.
Defined.

(** ** Creating keys *)

Lemma key_prefix_inj (a b : string) : "key_" +:+ a = "key_" +:+ b → a = b.
Proof. intros H. by simplify_eq/=. Qed.

Lemma create_fresh now token d :
  api_keys d !! ("key_" +:+ token) = None →
  create_api_key now token d
  = (set_api_keys (<["key_" +:+ token := free_row now]> (api_keys d)) d,
     Return ("key_" +:+ token, "free")).
Proof. intros E. unfold create_api_key, Sql.insert_new. by rewrite E. Qed.

Lemma create_taken now token d r :
  api_keys d !! ("key_" +:+ token) = Some r →
  create_api_key now token d = (d, Raise IntegrityError).
Proof. intros E. unfold create_api_key, Sql.insert_new. by rewrite E. Qed.

(** X4. Creating a key whose name is not taken returns the name and "free";
    right after, the status route shows it free and active, every other key
    and every usage row is as before, and the first quota check of a key
    without usage today counts 1 against the free limit. *)
Theorem created_key_is_free_and_active env now now' token d :
  api_keys d !! ("key_" +:+ token) = None →
  let k := "key_" +:+ token in
  let d' := fst (create_api_key now token d) in
  snd (create_api_key now token d) = Return (k, "free")
  ∧ key_status k d'
    = (d', Return {| ks_api_key := k; ks_plan := Some "free"; ks_is_active := true |})
  ∧ (∀ j, j ≠ k → api_keys d' !! j = api_keys d !! j)
  ∧ usage_counters d' = usage_counters d
  ∧ (usage_counters d !! (k, utc_day_str now') = None →
     1 ≤ FREE_LIMIT_PER_DAY env →
     snd (protected_ping env now' k d')
     = Return {| meta_plan := "free"; used_today := 1;
                 limit_today := FREE_LIMIT_PER_DAY env |}).
Proof.
  intros E k d'. subst k d'. rewrite (create_fresh now token d E). cbn [fst snd].
  assert (api_keys (set_api_keys (<["key_" +:+ token := free_row now]> (api_keys d)) d)
            !! ("key_" +:+ token) = Some (free_row now)) as L
    by apply lookup_insert_eq.
  repeat split.
  - by rewrite key_status_eq, L.
  - intros j Hj. simpl. by rewrite lookup_insert_ne.
  - intros U HL. unfold protected_ping.
    rewrite (require_active env now' _ _ (free_row now) L eq_refl). cbn [snd].
    unfold answer, usage_count; simpl usage_counters. rewrite U.
    cbv zeta. simpl or_free. unfold get_limit_for_plan; simpl String.eqb.
    simpl default. change (0 + 1) with 1.
    rewrite Z.gtb_ltb. by rewrite (proj2 (Z.ltb_ge _ _) HL).
Qed.

Lemma created_key_is_free_and_active_witness :
  snd (create_api_key Scenario.noon "abc" init_db) = Return ("key_abc", "free").
Proof.
  destruct (created_key_is_free_and_active Scenario.env Scenario.noon Scenario.next_day
              "abc" init_db) as (W & _).
  - reflexivity.
  - exact W.
Defined.

(** X5. Creating a key whose name is already taken raises an
    [IntegrityError] (the INSERT has no OR IGNORE) and leaves the database,
    the existing row included, as it was; so a second creation with the same
    token always fails, whatever the database was before the first. *)
Theorem create_collision_raises now now' token d :
  (∀ r, api_keys d !! ("key_" +:+ token) = Some r →
        create_api_key now token d = (d, Raise IntegrityError))
  ∧ create_api_key now' token (fst (create_api_key now token d))
    = (fst (create_api_key now token d), Raise IntegrityError).
Proof.
  split; [intros r; apply create_taken|].
  destruct (api_keys d !! ("key_" +:+ token)) as [r|] eqn:E.
  - rewrite (create_taken now token d r E). apply (create_taken now' token d r E).
  - rewrite (create_fresh now token d E). cbn [fst].
    apply (create_taken _ _ _ (free_row now)). simpl. apply lookup_insert_eq.
Qed.

Lemma create_collision_raises_witness :
  create_api_key Scenario.next_day "abc" Scenario.upgraded
  = (Scenario.upgraded, Raise IntegrityError).
Proof.
  destruct (create_collision_raises Scenario.next_day Scenario.next_day "abc"
              Scenario.upgraded) as (W & _).
  apply (W (to_pro (free_row Scenario.noon))).
  vm_compute; reflexivity.
Defined.

Lemma creates_spec reqs : ∀ d,
  NoDup (snd <$> reqs) →
  Forall (fun req => api_keys d !! ("key_" +:+ snd req) = None) reqs →
  snd (creates reqs d) = (fun req => Return ("key_" +:+ snd req, "free")) <$> reqs
  ∧ (∀ req, req ∈ reqs →
       ∃ now, api_keys (fst (creates reqs d)) !! ("key_" +:+ snd req)
              = Some (free_row now))
  ∧ (∀ j, (∀ req, req ∈ reqs → j ≠ "key_" +:+ snd req) →
       api_keys (fst (creates reqs d)) !! j = api_keys d !! j)
  ∧ size (api_keys (fst (creates reqs d))) = (size (api_keys d) + length reqs)%nat.
Proof.
  induction reqs as [|[now token] rest IH]; intros d ND F.
  { simpl. split; [done|]. split; [intros req Hreq; by apply elem_of_nil in Hreq|].
    split; [done | lia]. }
  rewrite fmap_cons in ND. apply NoDup_cons in ND as [Hnotin ND].
  apply Forall_cons in F as [E F]. cbn [snd] in *.
  cbn [creates]. rewrite (create_fresh now token d E).
  set (d1 := set_api_keys (<["key_" +:+ token := free_row now]> (api_keys d)) d).
  assert (Forall (fun req => api_keys d1 !! ("key_" +:+ snd req) = None) rest) as F1.
  { apply Forall_forall. intros req Hreq.
    rewrite Forall_forall in F. subst d1; simpl.
    rewrite lookup_insert_ne; [by apply F|].
    intros Heq. apply key_prefix_inj in Heq. apply Hnotin.
    rewrite Heq. by apply list_elem_of_fmap_2. }
  destruct (IH d1 ND F1) as (R & S & O & Z).
  destruct (creates rest d1) as [d2 rs] eqn:C. cbn [fst snd] in *.
  repeat split.
  - by rewrite fmap_cons, R.
  - intros req Hreq. apply elem_of_cons in Hreq as [-> | Hreq]; [|by apply S].
    exists now. cbn [snd]. rewrite O; [subst d1; simpl; apply lookup_insert_eq|].
    intros req Hreq Heq. apply key_prefix_inj in Heq. apply Hnotin.
    rewrite Heq. by apply list_elem_of_fmap_2.
  - intros j Hj. rewrite O.
    + subst d1; simpl. rewrite lookup_insert_ne; [done|].
      intros Heq. eapply (Hj (now, token)); [by left | done].
    + intros req Hreq. apply Hj. by right.
  - rewrite Z. subst d1; simpl. rewrite map_size_insert_None by done. lia.
Qed.

(** X6. Creating keys for pairwise different tokens, none of which names an
    existing key, never fails: every call returns its key with plan "free",
    every one of these keys ends up stored free and active, the other rows
    are untouched, and the key table grows by exactly the number of
    calls. *)
Theorem distinct_tokens_give_distinct_keys reqs d :
  NoDup (snd <$> reqs) →
  Forall (fun req => api_keys d !! ("key_" +:+ snd req) = None) reqs →
  snd (creates reqs d) = (fun req => Return ("key_" +:+ snd req, "free")) <$> reqs
  ∧ (∀ req, req ∈ reqs →
       ∃ now, api_keys (fst (creates reqs d)) !! ("key_" +:+ snd req)
              = Some (free_row now))
  ∧ (∀ j, (∀ req, req ∈ reqs → j ≠ "key_" +:+ snd req) →
       api_keys (fst (creates reqs d)) !! j = api_keys d !! j)
  ∧ size (api_keys (fst (creates reqs d))) = (size (api_keys d) + length reqs)%nat.
Proof. apply creates_spec. Qed.

Lemma distinct_tokens_give_distinct_keys_witness :
  snd (creates [(Scenario.noon, "a"); (Scenario.noon, "b"); (Scenario.next_day, "c")]
         Scenario.created)
  = [Return ("key_a", "free"); Return ("key_b", "free"); Return ("key_c", "free")].
Proof.
  destruct (distinct_tokens_give_distinct_keys
              [(Scenario.noon, "a"); (Scenario.noon, "b"); (Scenario.next_day, "c")]
              Scenario.created) as (W & _).
  - apply (bool_decide_unpack (NoDup ["a"; "b"; "c"])). vm_compute. exact I.
  - repeat constructor.
  - exact W.
Defined.

(** ** Ensuring and upgrading *)

Lemma ensure_present now k d r :
  api_keys d !! k = Some r → fst (ensure_key_exists now k d) = d.
Proof.
  intros E. simpl. unfold Sql.insert_or_ignore. rewrite E. by destruct d.
Qed.

(** X7. [ensure_key_exists] is idempotent, also across clock readings: a
    second call changes nothing.  On a key that has a row it changes nothing
    at all (plan, flag and creation time stay); on a key without one it
    stores a free, active row stamped with the clock reading. *)
Theorem ensure_key_exists_idempotent now now' k d :
  fst (ensure_key_exists now' k (fst (ensure_key_exists now k d)))
  = fst (ensure_key_exists now k d)
  ∧ (∀ r, api_keys d !! k = Some r → fst (ensure_key_exists now k d) = d)
  ∧ (api_keys d !! k = None →
     api_keys (fst (ensure_key_exists now k d)) !! k = Some (free_row now)).
Proof.
  assert (api_keys d !! k = None →
          api_keys (fst (ensure_key_exists now k d)) !! k = Some (free_row now)) as N.
  { intros E. simpl. unfold Sql.insert_or_ignore. rewrite E. apply lookup_insert_eq. }
  repeat split; [| intros r; apply ensure_present | done].
  destruct (api_keys d !! k) as [r|] eqn:E.
  - by rewrite !(ensure_present _ k d r E).
  - by apply (ensure_present now' k _ (free_row now)), N.
Qed.

Lemma ensure_key_exists_idempotent_witness :
  fst (ensure_key_exists Scenario.next_day Scenario.key Scenario.upgraded)
  = Scenario.upgraded.
Proof.
  destruct (ensure_key_exists_idempotent Scenario.next_day Scenario.noon Scenario.key
              Scenario.upgraded) as (_ & W & _).
  apply (W (to_pro (free_row Scenario.noon))).
  vm_compute; reflexivity.
Defined.

(** X8. After [upgrade_api_key_to_pro] a key that has a row (whatever its
    plan and flag were, a disabled key included) passes the active test and
    is measured against PRO_LIMIT_PER_DAY; today's count is not reset by the
    upgrade, the call continues from it. *)
Theorem upgraded_key_uses_pro_limit env now k d row :
  api_keys d !! k = Some row →
  snd (protected_ping env now k (fst (upgrade_api_key_to_pro k d)))
  = (let used := usage_count d k (utc_day_str now) + 1 in
     if used >? PRO_LIMIT_PER_DAY env
     then Raise (HTTPException 429 (limit_message used (PRO_LIMIT_PER_DAY env)))
     else Return {| meta_plan := "pro"; used_today := used;
                    limit_today := PRO_LIMIT_PER_DAY env |}).
Proof.
  intros E. unfold protected_ping.
  rewrite (require_active env now k _ (to_pro row)).
  - reflexivity.
  - rewrite upgrade_lookup, decide_True by done. by rewrite E.
  - reflexivity.
Qed.

(** X8 at the scenario: the key that was refused at 25/25 is served again
    after its upgrade, as call 26 of 10000. *)
Lemma upgraded_key_uses_pro_limit_witness :
  snd (protected_ping Scenario.env Scenario.noon Scenario.key
         (fst (upgrade_api_key_to_pro Scenario.key Scenario.exhausted)))
  = Return {| meta_plan := "pro"; used_today := 26; limit_today := 10000 |}.
Proof.
  rewrite (upgraded_key_uses_pro_limit Scenario.env Scenario.noon Scenario.key
             Scenario.exhausted (free_row Scenario.noon)).
  - vm_compute; reflexivity.
  - vm_compute; reflexivity.
Defined.

(** ** Webhook deliveries that upgrade nothing *)

(** X9. A verified event is always acknowledged with ok.  When its type is
    not "checkout.session.completed", or its metadata names no api key, or
    names the empty string, the database is left untouched. *)
Theorem other_events_pass_through env construct_event now payload sig ev d :
  WEBHOOK_SECRET env ≠ "" →
  construct_event now payload sig (WEBHOOK_SECRET env) = Some ev →
  snd (stripe_webhook env construct_event now payload sig d) = Return {| ok := true |}
  ∧ (event_type ev ≠ "checkout.session.completed"
     ∨ metadata_api_key (data_object ev) = None
     ∨ metadata_api_key (data_object ev) = Some "" →
     fst (stripe_webhook env construct_event now payload sig d) = d).
Proof.
  intros S C. rewrite (webhook_accepted env construct_event now payload sig ev d S C).
  split; [done|]. cbn [fst]. intros [T | [K | K]].
  - by destruct (String.eqb_spec (event_type ev) "checkout.session.completed").
  - rewrite K. by destruct (String.eqb _ _).
  - rewrite K. by destruct (String.eqb _ _).
Qed.

Lemma other_events_pass_through_witness :
  snd (stripe_webhook Scenario.env Scenario.construct_invoice Scenario.noon Scenario.key
         None Scenario.created) = Return {| ok := true |}
  ∧ fst (stripe_webhook Scenario.env Scenario.construct_invoice Scenario.noon Scenario.key
           None Scenario.created) = Scenario.created.
Proof.
  destruct (other_events_pass_through Scenario.env Scenario.construct_invoice
              Scenario.noon Scenario.key None
              {| event_type := "invoice.paid";
                 data_object := {| metadata := Some {[ "api_key" := Scenario.key ]} |} |}
              Scenario.created) as (W1 & W2).
  - vm_compute; congruence.
  - reflexivity.
  - split; [exact W1|]. apply W2. left. vm_compute; congruence.
Defined.

(** X10. A verified checkout-completed event that names a key without a row
    is acknowledged with ok and changes nothing: the payment is not
    recorded, and a key of that name ensured afterwards starts as free. *)
Theorem payment_for_unknown_key_is_dropped env construct_event now now' payload sig ev k d :
  WEBHOOK_SECRET env ≠ "" →
  construct_event now payload sig (WEBHOOK_SECRET env) = Some ev →
  event_type ev = "checkout.session.completed" →
  metadata_api_key (data_object ev) = Some k →
  api_keys d !! k = None →
  stripe_webhook env construct_event now payload sig d = (d, Return {| ok := true |})
  ∧ api_keys (fst (ensure_key_exists now' k
                     (fst (stripe_webhook env construct_event now payload sig d)))) !! k
    = Some (free_row now').
Proof.
  intros S C T K E.
  assert (stripe_webhook env construct_event now payload sig d
          = (d, Return {| ok := true |})) as ->.
  { rewrite (webhook_accepted env construct_event now payload sig ev d S C).
    rewrite T, K; simpl String.eqb.
    destruct (String.eqb k ""); [done|]. by rewrite (upgrade_absent k d E). }
  split; [done|]. cbn [fst]. simpl. unfold Sql.insert_or_ignore. rewrite E.
  apply lookup_insert_eq.
Qed.

Lemma payment_for_unknown_key_is_dropped_witness :
  stripe_webhook Scenario.env Scenario.construct_event Scenario.noon "key_other"
    (Some "good") Scenario.created
  = (Scenario.created, Return {| ok := true |}).
Proof.
  apply (payment_for_unknown_key_is_dropped Scenario.env Scenario.construct_event
           Scenario.noon Scenario.next_day "key_other" (Some "good")
           {| event_type := "checkout.session.completed";
              data_object := {| metadata := Some {[ "api_key" := "key_other" ]} |} |}
           "key_other" Scenario.created).
  - vm_compute; congruence.
  - reflexivity.
  - reflexivity.
  - vm_compute; reflexivity.
  - vm_compute; reflexivity.
Defined.

(** ** What every sequence of requests keeps *)

Section MoreSequences.
Variable env : Env.
Variable construct_event : datetime → string → option string → string → option Event.

Lemma to_pro_twice r : to_pro (to_pro r) = to_pro r.
Proof. reflexivity. Qed.

Lemma run_cons o ops d :
  run env construct_event (o :: ops) d
  = run env construct_event ops (step env construct_event o d).
Proof. reflexivity. Qed.

Lemma run_row ops : ∀ d k r,
  api_keys d !! k = Some r →
  api_keys (run env construct_event ops d) !! k = Some r
  ∨ api_keys (run env construct_event ops d) !! k = Some (to_pro r).
Proof.
  induction ops as [|o ops IH]; intros d k r E; [by left|].
  rewrite run_cons.
  destruct (step_row env construct_event o d k r E) as [E' | E'].
  - by apply IH.
  - destruct (IH _ k _ E') as [-> | ->]; by right.
Qed.

(** Where the row of a key after one request comes from. *)
Lemma step_row_origin o d k r' :
  api_keys (step env construct_event o d) !! k = Some r' →
  api_keys d !! k = Some r'
  ∨ (api_keys d !! k = None ∧ ∃ now, r' = free_row now)
  ∨ (∃ r, api_keys d !! k = Some r ∧ r' = to_pro r).
Proof.
  intros E'. destruct (api_keys d !! k) as [r|] eqn:E.
  - destruct (step_row env construct_event o d k r E) as [H | H];
      rewrite H in E'; simplify_eq; [by left | right; right; by exists r].
  - right; left. split; [done|].
    destruct o as [now token|now k'|k'|now k'|k'|now payload sig]; cbn [step] in E'.
    + unfold create_api_key, Sql.insert_new in E'.
      destruct (api_keys d !! ("key_" +:+ token)); simpl in E'; [congruence|].
      apply lookup_insert_Some in E' as [[_ <-] | [_ E']]; [by exists now | congruence].
    + simpl in E'. unfold Sql.insert_or_ignore in E'.
      destruct (api_keys d !! k'); simpl in E'; [congruence|].
      apply lookup_insert_Some in E' as [[_ <-] | [_ E']]; [by exists now | congruence].
    + rewrite key_status_reads_only in E'. congruence.
    + unfold protected_ping in E'. rewrite require_keeps_keys in E'. congruence.
    + rewrite upgrade_lookup in E'. case_decide; subst; rewrite E in E'; done.
    + destruct (webhook_keys env construct_event now payload sig d) as [H | [k' H]];
        rewrite H in E'; [congruence|].
      rewrite upgrade_lookup in E'. case_decide; subst; rewrite E in E'; done.
Qed.

Lemma step_keys_wf o d : keys_wf d → keys_wf (step env construct_event o d).
Proof.
  intros W k r' E'.
  destruct (step_row_origin o d k r' E') as [E | [[_ [now ->]] | [r [E ->]]]].
  - by apply (W k).
  - simpl. auto.
  - simpl. auto.
Qed.

(** The ledger after one request: as before, or one more for the (key, day)
    of a quota check on a key that has an active row. *)
Lemma step_ledger o d :
  usage_counters (step env construct_event o d) = usage_counters d
  ∨ ∃ now k row,
      api_keys d !! k = Some row
      ∧ usage_counters (step env construct_event o d)
        = <[(k, utc_day_str now) := usage_count d k (utc_day_str now) + 1]>
            (usage_counters d).
Proof.
  destruct o as [now token|now k'|k'|now k'|k'|now payload sig]; cbn [step].
  - left. unfold create_api_key. by destruct (Sql.insert_new _ _ _).
  - by left.
  - left. by rewrite key_status_reads_only.
  - unfold protected_ping. destruct (api_keys d !! k') as [row|] eqn:E.
    + destruct (require_ledger env now k' d) as [H | H]; [by left|].
      right. by exists now, k', row.
    + left. by rewrite (require_unknown env now k' d E).
  - by left.
  - left. by destruct (webhook_keys env construct_event now payload sig d)
      as [-> | [k' ->]].
Qed.

Lemma step_ledger_owned o d : ledger_owned d → ledger_owned (step env construct_event o d).
Proof.
  intros W [k day] c E'. cbn [fst].
  assert (is_Some (api_keys d !! k)) as [r Hr].
  { destruct (step_ledger o d) as [H | (now & k0 & row & Hrow & H)]; rewrite H in E'.
    - apply (W (k, day) c E').
    - apply lookup_insert_Some in E' as [[Hk _] | [_ E']].
      + simplify_eq. by exists row.
      + apply (W (k, day) c E'). }
  destruct (step_row env construct_event o d k r Hr) as [-> | ->]; by eexists.
Qed.

Lemma step_usage_count o d k day :
  usage_count d k day ≤ usage_count (step env construct_event o d) k day
  ∧ (is_Some (usage_counters d !! (k, day)) →
     is_Some (usage_counters (step env construct_event o d) !! (k, day))).
Proof.
  unfold usage_count.
  destruct (step_ledger o d) as [-> | (now & k0 & row & _ & ->)]; [done|].
  destruct (decide ((k0, utc_day_str now) = (k, day))) as [Heq | Hne].
  - simplify_eq. rewrite lookup_insert_eq. split; [simpl; unfold usage_count; lia|].
    by eexists.
  - by rewrite lookup_insert_ne.
Qed.

Lemma run_usage_count ops : ∀ d k day,
  usage_count d k day ≤ usage_count (run env construct_event ops d) k day
  ∧ (is_Some (usage_counters d !! (k, day)) →
     is_Some (usage_counters (run env construct_event ops d) !! (k, day))).
Proof.
  induction ops as [|o ops IH]; intros d k day; [done|].
  rewrite run_cons.
  destruct (step_usage_count o d k day) as [H1 H2].
  destruct (IH (step env construct_event o d) k day) as [H3 H4].
  split; [lia | auto].
Qed.

Lemma run_store_wf ops : ∀ d,
  keys_wf d → ledger_wf d → ledger_owned d →
  keys_wf (run env construct_event ops d)
  ∧ ledger_wf (run env construct_event ops d)
  ∧ ledger_owned (run env construct_event ops d).
Proof.
  induction ops as [|o ops IH]; intros d K L O; [done|].
  rewrite run_cons. apply IH.
  - by apply step_keys_wf.
  - by apply step_ledger_wf.
  - by apply step_ledger_owned.
Qed.

Lemma init_db_wf : keys_wf init_db ∧ ledger_wf init_db ∧ ledger_owned init_db.
Proof.
  unfold keys_wf, ledger_wf, ledger_owned. simpl.
  split; [|split]; apply map_Forall_empty.
Qed.
End MoreSequences.

(** X11. Through any sequence of requests the count of a (key, day) pair
    never goes down and its row, once there, is never removed. *)
Theorem usage_never_decreases env construct_event ops d k day :
  usage_count d k day ≤ usage_count (run env construct_event ops d) k day
  ∧ (is_Some (usage_counters d !! (k, day)) →
     is_Some (usage_counters (run env construct_event ops d) !! (k, day))).
Proof. apply run_usage_count. Qed.

(** X12. Through any sequence of requests a key's row is never removed and
    changes in one way only: it is what it was, or what it was with plan
    "pro" and is_active 1.  The creation time is never rewritten and no
    request switches a key off. *)
Theorem rows_change_only_by_upgrade env construct_event ops d k r :
  api_keys d !! k = Some r →
  ∃ r', api_keys (run env construct_event ops d) !! k = Some r'
        ∧ (r' = r ∨ r' = to_pro r)
        ∧ created_at r' = created_at r
        ∧ (is_active r = Some 1 → is_active r' = Some 1).
Proof.
  intros E. destruct (run_row env construct_event ops d k r E) as [H | H].
  - exists r. auto.
  - exists (to_pro r). auto.
Qed.

Lemma rows_change_only_by_upgrade_witness :
  ∃ r', api_keys
          (run Scenario.env Scenario.construct_event
             [CheckAndCount Scenario.noon Scenario.key;
              HandlePaymentEvent Scenario.next_day Scenario.key (Some "good");
              EnsureExists Scenario.next_day Scenario.key]
             Scenario.created) !! Scenario.key = Some r'
        ∧ (r' = free_row Scenario.noon ∨ r' = to_pro (free_row Scenario.noon))
        ∧ created_at r' = created_at (free_row Scenario.noon)
        ∧ (is_active (free_row Scenario.noon) = Some 1 → is_active r' = Some 1).
Proof.
  apply (rows_change_only_by_upgrade Scenario.env Scenario.construct_event _
           Scenario.created Scenario.key (free_row Scenario.noon)).
  vm_compute; reflexivity.
Defined.

(** X13. In every database the requests build from an empty one, each key
    is active with plan "free" or "pro", each stored count is at least 1,
    and each usage row belongs to a key that has a row. *)
Theorem reachable_database_is_well_formed env construct_event ops :
  let d := run env construct_event ops init_db in
  (∀ k r, api_keys d !! k = Some r →
          is_active r = Some 1 ∧ (plan r = Some "free" ∨ plan r = Some "pro"))
  ∧ (∀ k day c, usage_counters d !! (k, day) = Some c →
                1 ≤ c ∧ is_Some (api_keys d !! k)).
Proof.
  intros d.
  destruct (run_store_wf env construct_event ops init_db) as (K & L & O);
    try apply init_db_wf.
  split.
  - intros k r E. apply (K k r E).
  - intros k day c E. split; [apply (L (k, day) c E) | apply (O (k, day) c E)].
Qed.

(** X14. On such a database the quota check has three outcomes only: the 404
    for a key without a row, the 429, or a success that reports plan "free"
    or "pro" with that plan's limit and 1 ≤ used_today ≤ limit_today.  The
    403 and the [TypeError] cannot happen. *)
Theorem reachable_check_outcomes env construct_event ops now k :
  let r := snd (protected_ping env now k (run env construct_event ops init_db)) in
  r = Raise (HTTPException 404 "Unknown api_key. Create one first.")
  ∨ (∃ used limit, r = Raise (HTTPException 429 (limit_message used limit)))
  ∨ (∃ m, r = Return m
          ∧ 1 ≤ used_today m ≤ limit_today m
          ∧ (meta_plan m = "free" ∧ limit_today m = FREE_LIMIT_PER_DAY env
             ∨ meta_plan m = "pro" ∧ limit_today m = PRO_LIMIT_PER_DAY env)).
Proof.
  intros r. subst r. unfold protected_ping.
  set (d := run env construct_event ops init_db).
  destruct (run_store_wf env construct_event ops init_db) as (K & L & _);
    try apply init_db_wf. fold d in K, L.
  destruct (api_keys d !! k) as [row|] eqn:E.
  2:{ left. by rewrite (require_unknown env now k d E). }
  destruct (K k row E) as [F P]. right.
  rewrite (require_active env now k d row E F). cbn [snd].
  pose proof (usage_count_nonneg d k (utc_day_str now) L) as C.
  unfold answer; cbv zeta.
  destruct (Z.gtb_spec (usage_count d k (utc_day_str now) + 1)
              (get_limit_for_plan env (or_free (plan row)))) as [G | G].
  - left. by eexists _, _.
  - right. eexists. split; [done|]. cbn [used_today limit_today meta_plan].
    split; [lia|]. destruct P as [-> | ->]; [left | right]; done.
Qed.

(** ** Calls past the limit, and calls on different counters *)

Section MoreQuota.
Variable env : Env.


(** Either the check fails before counting, and does so on every database
    with the same key table, or the key has an active row. *)
Lemma require_cases now k d :
  (∃ e, ∀ d', api_keys d' = api_keys d →
              require_active_and_rate_limit env now k d' = (d', Raise e))
  ∨ (∃ row, api_keys d !! k = Some row ∧ is_active row = Some 1).
Proof.
  destruct (api_keys d !! k) as [row|] eqn:E.
  - destruct (is_active row) as [a|] eqn:F.
    + destruct (decide (a = 1)) as [->|Ha]; [right; by exists row|].
      left. eexists. intros d' Hd'. rewrite <- Hd' in E.
      apply (require_inactive env now k d' row a E F Ha).
    + left. eexists. intros d' Hd'. rewrite <- Hd' in E.
      apply (require_null_flag env now k d' row E F).
  - left. eexists. intros d' Hd'. rewrite <- Hd' in E.
    apply (require_unknown env now k d' E).
Qed.

Lemma increments_commute now1 k1 now2 k2 d :
  (k1, utc_day_str now1) ≠ (k2, utc_day_str now2) →
  fst (increment_usage now2 k2 (fst (increment_usage now1 k1 d)))
  = fst (increment_usage now1 k1 (fst (increment_usage now2 k2 d)))
  ∧ usage_count (fst (increment_usage now1 k1 d)) k2 (utc_day_str now2)
    = usage_count d k2 (utc_day_str now2).
Proof.
  intros Hne. rewrite !increment_usage_eq. cbn [fst]. split.
  - unfold set_usage_counters, usage_count; simpl.
    rewrite !lookup_insert_ne by congruence.
    f_equal. by apply insert_insert_ne.
  - unfold usage_count; simpl. by rewrite lookup_insert_ne.
Qed.
End MoreQuota.



(** X16. Two quota checks that address different (key, day) counters do not
    see each other: in either order each gets the same answer and the
    database ends the same. *)
Theorem checks_on_different_counters_commute env now1 k1 now2 k2 d :
  (k1, utc_day_str now1) ≠ (k2, utc_day_str now2) →
  let a := require_active_and_rate_limit env now1 k1 d in
  let ab := require_active_and_rate_limit env now2 k2 (fst a) in
  let b := require_active_and_rate_limit env now2 k2 d in
  let ba := require_active_and_rate_limit env now1 k1 (fst b) in
  fst ab = fst ba ∧ snd a = snd ba ∧ snd b = snd ab.
Proof.
  intros Hne a ab b ba. subst a ab b ba.
  destruct (require_cases env now1 k1 d) as [[e1 H1] | (row1 & E1 & F1)].
  { rewrite (H1 d eq_refl). cbn [fst snd].
    rewrite (H1 _ (require_keeps_keys env now2 k2 d)). done. }
  destruct (require_cases env now2 k2 d) as [[e2 H2] | (row2 & E2 & F2)].
  { rewrite (H2 d eq_refl). cbn [fst snd].
    rewrite (H2 _ (require_keeps_keys env now1 k1 d)). done. }
  assert (api_keys (fst (increment_usage now1 k1 d)) = api_keys d) as K1
    by (by rewrite increment_usage_eq).
  assert (api_keys (fst (increment_usage now2 k2 d)) = api_keys d) as K2
    by (by rewrite increment_usage_eq).
  rewrite (require_active env now1 k1 d row1 E1 F1).
  rewrite (require_active env now2 k2 d row2 E2 F2). cbn [fst snd].
  rewrite (require_active env now2 k2 _ row2) by (by rewrite ?K1).
  rewrite (require_active env now1 k1 _ row1) by (by rewrite ?K2).
  cbn [fst snd].
  destruct (increments_commute now1 k1 now2 k2 d Hne) as [C1 C2].
  destruct (increments_commute now2 k2 now1 k1 d) as [_ C3]; [congruence|].
  by rewrite C1, C2, C3.
Qed.

Lemma checks_on_different_counters_commute_witness :
  snd (require_active_and_rate_limit Scenario.env Scenario.next_day Scenario.key
         (fst (require_active_and_rate_limit Scenario.env Scenario.noon Scenario.key
                 Scenario.created)))
  = snd (require_active_and_rate_limit Scenario.env Scenario.next_day Scenario.key
           Scenario.created).
Proof.
  destruct (checks_on_different_counters_commute Scenario.env Scenario.noon Scenario.key
              Scenario.next_day Scenario.key Scenario.created) as (_ & _ & W).
  - vm_compute; congruence.
  - symmetry. exact W.
Defined.

(** ** Checkout *)

Section CheckoutFacts.
Variable stripe_api_key : option string.
Variable strip : string → string.
Variable Session_create : string → option (string * string).

Lemma checkout_configured now body s d :
  stripe_api_key = Some s → s ≠ "" → strip body ≠ "" →
  create_checkout stripe_api_key strip Session_create now body d
  = (fst (ensure_key_exists now (strip body) d),
     match Session_create (strip body) with
     | Some (url, session_id) => CheckoutSession url session_id
     | None => CheckoutStripeError
     end).
Proof.
  intros -> Hs Hb. unfold create_checkout.
  destruct (String.eqb_spec s ""); [done|].
  destruct (String.eqb_spec (strip body) ""); [done|].
  by destruct (Session_create (strip body)) as [[url sid]|].
Qed.
End CheckoutFacts.

(** X17. Checkout is refused without writing anything when the Stripe secret
    key is unset or empty (500), and otherwise when the key in the body is
    empty after stripping (400). *)
Theorem checkout_refusals_write_nothing stripe_api_key strip Session_create now body d :
  (stripe_api_key = None ∨ stripe_api_key = Some "" →
   create_checkout stripe_api_key strip Session_create now body d
   = (d, CheckoutRefused 500 "STRIPE_SECRET_KEY is missing"))
  ∧ (∀ s, stripe_api_key = Some s → s ≠ "" → strip body = "" →
     create_checkout stripe_api_key strip Session_create now body d
     = (d, CheckoutRefused 400 "api_key is required")).
Proof.
  split.
  - intros [-> | ->]; reflexivity.
  - intros s -> Hs Hb. unfold create_checkout.
    destruct (String.eqb_spec s ""); [done|]. by rewrite Hb.
Qed.

Lemma checkout_refusals_write_nothing_witness :
  create_checkout (Some "sk_test_1") Scenario.strip Scenario.Session_create
    Scenario.noon " " Scenario.created
  = (Scenario.created, CheckoutRefused 400 "api_key is required").
Proof.
  destruct (checkout_refusals_write_nothing (Some "sk_test_1") Scenario.strip
              Scenario.Session_create Scenario.noon " " Scenario.created) as (_ & W).
  apply (W "sk_test_1").
  - reflexivity.
  - vm_compute; congruence.
  - reflexivity.
Defined.

(** X18. With the Stripe key configured and a key that is not empty after
    stripping, checkout commits [ensure_key_exists] for the stripped key
    before it calls Stripe: the key has a row afterwards whether Stripe
    returns a session or raises, a row that was there is unchanged, and a
    row that was not is free and active. *)
Theorem checkout_stores_key_before_stripe stripe_api_key strip Session_create now body s d :
  stripe_api_key = Some s → s ≠ "" → strip body ≠ "" →
  let k := strip body in
  let after := create_checkout stripe_api_key strip Session_create now body d in
  fst after = fst (ensure_key_exists now k d)
  ∧ snd after = match Session_create k with
                | Some (url, session_id) => CheckoutSession url session_id
                | None => CheckoutStripeError
                end
  ∧ api_keys (fst after) !! k = Some (default (free_row now) (api_keys d !! k))
  ∧ usage_counters (fst after) = usage_counters d.
Proof.
  intros Hk Hs Hb k after. subst k after.
  rewrite (checkout_configured stripe_api_key strip Session_create now body s d Hk Hs Hb).
  cbn [fst snd]. repeat split.
  simpl. unfold Sql.insert_or_ignore.
  destruct (api_keys d !! strip body) as [r|] eqn:E; simpl; [done|].
  apply lookup_insert_eq.
Qed.

(** X18 at the scenario: Stripe is down, the unknown key is stored anyway. *)
Lemma checkout_stores_key_before_stripe_witness :
  let after := create_checkout (Some "sk_test_1") Scenario.strip
                 Scenario.Session_create_down Scenario.noon " key_abc " init_db in
  snd after = CheckoutStripeError
  ∧ api_keys (fst after) !! "key_abc" = Some (free_row Scenario.noon).
Proof.
  destruct (checkout_stores_key_before_stripe (Some "sk_test_1") Scenario.strip
              Scenario.Session_create_down Scenario.noon " key_abc " "sk_test_1" init_db)
    as (_ & W1 & W2 & _).
  - reflexivity.
  - vm_compute; congruence.
  - vm_compute; congruence.
  - split; [exact W1 | exact W2].
Defined.

(** X19. The payment flow end to end: after a checkout for a key (accepted
    by this service, whatever Stripe answered) a verified checkout-completed
    event naming the stripped key leaves that key with plan "pro" and
    is_active 1, and its next quota check is measured against
    PRO_LIMIT_PER_DAY, continuing today's count. *)
Theorem checkout_then_payment_gives_pro
    env construct_event stripe_api_key strip Session_create
    now1 now2 now3 body s payload sig ev d :
  stripe_api_key = Some s → s ≠ "" → strip body ≠ "" →
  WEBHOOK_SECRET env ≠ "" →
  construct_event now2 payload sig (WEBHOOK_SECRET env) = Some ev →
  event_type ev = "checkout.session.completed" →
  metadata_api_key (data_object ev) = Some (strip body) →
  let k := strip body in
  let d1 := fst (create_checkout stripe_api_key strip Session_create now1 body d) in
  let d2 := fst (stripe_webhook env construct_event now2 payload sig d1) in
  (∃ r, api_keys d2 !! k = Some r ∧ plan r = Some "pro" ∧ is_active r = Some 1)
  ∧ snd (protected_ping env now3 k d2)
    = (let used := usage_count d k (utc_day_str now3) + 1 in
       if used >? PRO_LIMIT_PER_DAY env
       then Raise (HTTPException 429 (limit_message used (PRO_LIMIT_PER_DAY env)))
       else Return {| meta_plan := "pro"; used_today := used;
                      limit_today := PRO_LIMIT_PER_DAY env |}).
Proof.
  intros Hk Hs Hb S C T K k d1 d2. subst k d1 d2.
  rewrite (checkout_configured stripe_api_key strip Session_create now1 body s d Hk Hs Hb).
  cbn [fst].
  set (d1 := fst (ensure_key_exists now1 (strip body) d)).
  rewrite (webhook_checkout env construct_event now2 payload sig ev (strip body) d1
             S C T K Hb). cbn [fst].
  assert (∃ r1, api_keys d1 !! strip body = Some r1) as [r1 E1].
  { subst d1. simpl. unfold Sql.insert_or_ignore.
    destruct (api_keys d !! strip body) as [r|] eqn:E; [by exists r|].
    eexists. apply lookup_insert_eq. }
  assert (api_keys (fst (upgrade_api_key_to_pro (strip body) d1)) !! strip body
          = Some (to_pro r1)) as E2.
  { rewrite upgrade_lookup, decide_True by done. by rewrite E1. }
  split; [by exists (to_pro r1)|].
  unfold protected_ping.
  rewrite (require_active env now3 _ _ (to_pro r1) E2 eq_refl). cbn [snd].
  reflexivity.
Qed.

Lemma checkout_then_payment_gives_pro_witness :
  snd (protected_ping Scenario.env Scenario.next_day "key_abc"
         (fst (stripe_webhook Scenario.env Scenario.construct_event Scenario.noon
                 "key_abc" (Some "good")
                 (fst (create_checkout (Some "sk_test_1") Scenario.strip
                         Scenario.Session_create Scenario.noon " key_abc " init_db)))))
  = Return {| meta_plan := "pro"; used_today := 1; limit_today := 10000 |}.
Proof.
  destruct (checkout_then_payment_gives_pro Scenario.env Scenario.construct_event
              (Some "sk_test_1") Scenario.strip Scenario.Session_create
              Scenario.noon Scenario.noon Scenario.next_day " key_abc " "sk_test_1"
              "key_abc" (Some "good")
              {| event_type := "checkout.session.completed";
                 data_object := {| metadata := Some {[ "api_key" := "key_abc" ]} |} |}
              init_db) as (_ & W).
  - reflexivity.
  - vm_compute; congruence.
  - vm_compute; congruence.
  - vm_compute; congruence.
  - reflexivity.
  - reflexivity.
  - vm_compute; reflexivity.
  - exact W.
Defined.

(** ** The counter on its own *)


